(** * BookingForm: the booking draft, its update handlers, pricing and
      submission gate

    A shallow embedding of the logic of [src/components/BookingForm.tsx]
    (the React component [BookingForm]) and the properties its
    specification states about it.

    Conventions of the embedding.

    - A JavaScript string is the sequence of its UTF-16 code units
      ([JS.string], a list of numbers); [length] is the [.length]
      property.  [JS.str] turns an ASCII literal into such a string.
    - The numbers the component computes with (seat counts, deltas, the
      price of a service, the size of a file) are integers; they are
      modelled by [Z] (sizes by [N]).  A computed total is a [JS.number]:
      an integer or [NaN].
    - [BUS_SERVICES] is imported from [../constants]; it is a plain object
      used as a map from service names to [{time, price}] records.  Its
      own entries are a section variable here, a [gmap].  The property
      read [BUS_SERVICES[k]] finds an own entry, or else a member that
      every plain object inherits from [Object.prototype] (such as
      [constructor] or [toString]), or else is [undefined]: see
      [BUS_SERVICES_get].
    - An event handler runs against the component's state (the draft held
      by [useState] and the element behind [fileInputRef]) and is a
      computation in the monad [M]: it returns the state it leaves and the
      trace of calls it makes to its collaborators ([e.preventDefault],
      [Swal.fire], the [onSubmit] prop, [FileReader.readAsDataURL]).
      Handlers are modelled one event at a time: the [formData] a handler
      closes over is the state at the time of the event, that is, the
      component has rendered since the state was last written.  The
      handlers that build their new draft from that [formData] are marked
      by [spreads_render]; what is proved about the order of two events
      is proved for the other handlers only. *)

From Stdlib Require Import ZArith NArith List String Ascii Bool Lia.
From stdpp Require Import base option list gmap.

Local Open Scope Z_scope.

(** ** JavaScript strings and the library functions the component calls *)

Module JS.

Abbreviation code_unit := N (only parsing).
Abbreviation string := (list N) (only parsing).

(** An ASCII literal as a JavaScript string. *)
Definition str (s : String.string) : string :=
  List.map N_of_ascii (list_ascii_of_string s).

(** [\d] is the class [[0-9]]; [\D] is its complement. *)
Definition class_d (c : code_unit) : bool := ((48 <=? c) && (c <=? 57))%N.
Definition class_D (c : code_unit) : bool := negb (class_d c).

(** [s.replace(/C/g, replacement)] for a regular expression made of one
    character class [C] with the global flag, and a replacement without
    [$] patterns: every code unit the class matches is replaced, the
    others are copied, from left to right. *)
Fixpoint replace_class_g (C : code_unit -> bool) (replacement : string)
    (s : string) : string :=
  match s with
  | [] => []
  | c :: rest =>
      if C c then replacement ++ replace_class_g C replacement rest
      else c :: replace_class_g C replacement rest
  end.

(** [s.slice(start, end)] (ECMA-262, String.prototype.slice): negative
    positions count from the end, positions are clamped to the string,
    and an empty range gives the empty string. *)
Definition slice (s : string) (start end_ : Z) : string :=
  let len := Z.of_nat (length s) in
  let from := if start <? 0 then Z.max (len + start) 0 else Z.min start len in
  let to := if end_ <? 0 then Z.max (len + end_) 0 else Z.min end_ len in
  if from >=? to then []
  else take (Z.to_nat (to - from)) (drop (Z.to_nat from) s).

(** A property that holds a string or [undefined]. *)
Inductive value := text (s : string) | undefined.

(** A number: an integer or [NaN]. *)
Inductive number := num (z : Z) | NaN.

(** The names of the members of [Object.prototype], which a plain object
    inherits.  Each of them reads as a function (or, for [__proto__], as
    [Object.prototype] itself): a truthy value that has no property
    [time] and no property [price]. *)
Definition Object_prototype_names : list string :=
  List.map str
    [ "constructor"; "__defineGetter__"; "__defineSetter__";
      "hasOwnProperty"; "__lookupGetter__"; "__lookupSetter__";
      "isPrototypeOf"; "propertyIsEnumerable"; "toString"; "valueOf";
      "__proto__"; "toLocaleString" ]%string.

End JS.

(** ** The data model *)

(** An entry of the service table ([BUS_SERVICES[name]]). *)
Module BusService.
Record t := mk { time : JS.string; price : Z }.
End BusService.

(** [BookingFormData] of [../types]: the booking draft. *)
Module BookingFormData.
Record t := mk {
  name : JS.string;
  phone : JS.string;
  from : JS.string;
  to : JS.string;
  date : JS.string;
  time : JS.value;
  bus : JS.string;
  maleSeats : Z;
  femaleSeats : Z;
  paymentSlip : JS.string
}.
End BookingFormData.

(** The part of a [File] the component reads. *)
Record File := { size : N }.

(** The element behind [fileInputRef], with the property the component
    writes. *)
Record HTMLInputElement := { value : JS.string }.

(** The options object passed to [Swal.fire]. *)
Inductive SwalIcon := error | warning.

Record SwalOptions := {
  title : JS.string;
  text : JS.string;
  icon : SwalIcon;
  confirmButtonColor : JS.string;
  customClass_popup : JS.string
}.

(** The seat kinds, the type ['male' | 'female']. *)
Inductive SeatType := male | female.

(** ** Component state, collaborators and the handler monad *)

(** [formData] is the state of [useState]; [fileInputRef] is
    [fileInputRef.current] ([None] for [null]). *)
Record State := {
  formData : BookingFormData.t;
  fileInputRef : option HTMLInputElement
}.

(** The calls a handler makes to the outside. *)
Inductive Effect :=
| preventDefault
| Swal_fire (options : SwalOptions)
| onSubmit (data : BookingFormData.t)
| readAsDataURL (file : File).

(** The argument of a [useState] setter: a value or an updater. *)
Inductive SetStateAction :=
| Value (v : BookingFormData.t)
| Updater (f : BookingFormData.t -> BookingFormData.t).

Definition M (A : Type) : Type := State -> A * State * list Effect.

(** [M] with stdpp's monad notations: [x ← m; k] and [m ;; k] run [m],
    then [k], and append the traces. *)
#[export] Instance M_ret : MRet M := fun A a st => (a, st, []).

#[export] Instance M_bind : MBind M := fun A B k m st =>
  let '(a, st1, t1) := m st in
  let '(b, st2, t2) := k a st1 in
  (b, st2, t1 ++ t2).

Definition perform (e : Effect) : M unit := fun st => (tt, st, [e]).

(** Reading [formData], the draft the handler closes over. *)
Definition readFormData : M BookingFormData.t :=
  fun st => (formData st, st, []).

Definition setFormData (a : SetStateAction) : M unit :=
  fun st =>
    let next := match a with
                | Value v => v
                | Updater f => f (formData st)
                end in
    (tt, {| formData := next; fileInputRef := fileInputRef st |}, []).

(** [if (fileInputRef.current) fileInputRef.current.value = v]. *)
Definition setFileInputValue (v : JS.string) : M unit :=
  fun st =>
    match fileInputRef st with
    | Some _ =>
        (tt, {| formData := formData st;
                fileInputRef := Some {| value := v |} |}, [])
    | None => (tt, st, [])
    end.

(** The state a handler leaves and the calls it made. *)
Definition state_after {A} (m : M A) (st : State) : State := snd (fst (m st)).
Definition trace {A} (m : M A) (st : State) : list Effect := snd (m st).

(** The drafts handed to [onSubmit], the alerts shown and the files whose
    decode was started, in the order of a trace. *)
Fixpoint onSubmit_calls (t : list Effect) : list BookingFormData.t :=
  match t with
  | [] => []
  | onSubmit d :: t' => d :: onSubmit_calls t'
  | _ :: t' => onSubmit_calls t'
  end.

Fixpoint alerts (t : list Effect) : list SwalOptions :=
  match t with
  | [] => []
  | Swal_fire o :: t' => o :: alerts t'
  | _ :: t' => alerts t'
  end.

Fixpoint decodes (t : list Effect) : list File :=
  match t with
  | [] => []
  | readAsDataURL f :: t' => f :: decodes t'
  | _ :: t' => decodes t'
  end.

(** ** The component *)

Import BookingFormData.

(** The alerts of the component (the arguments of its three [Swal.fire]
    calls). *)
Definition fileTooLarge : SwalOptions := {|
  title := JS.str "File too large";
  text := JS.str "Please upload an image smaller than 3MB";
  icon := error;
  confirmButtonColor := JS.str "#0066FF";
  customClass_popup := JS.str "rounded-3xl"
|}.

Definition seatSelectionRequired : SwalOptions := {|
  title := JS.str "Seat Selection Required";
  text := JS.str "Please select at least one male or female seat.";
  icon := warning;
  confirmButtonColor := JS.str "#0066FF";
  customClass_popup := JS.str "rounded-3xl"
|}.

Definition invalidPhoneNumber : SwalOptions := {|
  title := JS.str "Invalid Phone Number";
  text := JS.str "Please enter a valid phone number (e.g., 0771234567).";
  icon := warning;
  confirmButtonColor := JS.str "#0066FF";
  customClass_popup := JS.str "rounded-3xl"
|}.

(** What the property read [BUS_SERVICES[key]] finds: an own entry of the
    table, a member inherited from [Object.prototype], or nothing
    ([undefined]). *)
Inductive Lookup :=
| entry (service : BusService.t)
| inherited
| not_found.

Section BookingForm.

(** The own entries of the service table of [../constants]. *)
Variable BUS_SERVICES : gmap JS.string BusService.t.

(** The property read [BUS_SERVICES[key]]: an own entry of the table
    first, then the members inherited from [Object.prototype], and
    [undefined] for any other key. *)
Definition BUS_SERVICES_get (key : JS.string) : Lookup :=
  match BUS_SERVICES !! key with
  | Some service => entry service
  | None =>
      if decide (key ∈ JS.Object_prototype_names) then inherited
      else not_found
  end.

(** [handleBusChange], lines 26-33.  [service ? service.time : '']: an
    entry and an inherited member are both truthy; an inherited member
    has no [time], so that [service.time] is [undefined]. *)
Definition handleBusChange (busName : JS.string) : M unit :=
  let service := BUS_SERVICES_get busName in
  setFormData (Updater (fun prev => {|
    name := name prev;
    phone := phone prev;
    from := from prev;
    to := to prev;
    date := date prev;
    time := match service with
            | entry service => JS.text (BusService.time service)
            | inherited => JS.undefined
            | not_found => JS.text (JS.str "")
            end;
    bus := busName;
    maleSeats := maleSeats prev;
    femaleSeats := femaleSeats prev;
    paymentSlip := paymentSlip prev
  |})).

(** [calculateTotal], lines 35-39, on the [formData] of the render.
    [!service] holds of [undefined] only; an inherited member has no
    [price], and [undefined] times a number is [NaN]. *)
Definition calculateTotal (formData : BookingFormData.t) : JS.number :=
  match BUS_SERVICES_get (bus formData) with
  | not_found => JS.num 0
  | entry service =>
      JS.num (BusService.price service
              * (maleSeats formData + femaleSeats formData))
  | inherited => JS.NaN
  end.

(** [updateSeats], lines 41-50. *)
Definition updateSeats (type : SeatType) (delta : Z) : M unit :=
  setFormData (Updater (fun prev =>
    let current := match type with
                   | male => maleSeats prev
                   | female => femaleSeats prev
                   end in
    let newVal := Z.max 0 (Z.min 10 (current + delta)) in
    match type with
    | male => {|
        name := name prev; phone := phone prev; from := from prev;
        to := to prev; date := date prev; time := time prev;
        bus := bus prev;
        maleSeats := newVal;
        femaleSeats := femaleSeats prev;
        paymentSlip := paymentSlip prev |}
    | female => {|
        name := name prev; phone := phone prev; from := from prev;
        to := to prev; date := date prev; time := time prev;
        bus := bus prev;
        maleSeats := maleSeats prev;
        femaleSeats := newVal;
        paymentSlip := paymentSlip prev |}
    end)).

(** The completion callback [reader.onloadend], lines 68-70, called
    with [reader.result]. *)
Definition reader_onloadend (result : JS.string) : M unit :=
  setFormData (Updater (fun prev => {|
    name := name prev; phone := phone prev; from := from prev;
    to := to prev; date := date prev; time := time prev;
    bus := bus prev;
    maleSeats := maleSeats prev;
    femaleSeats := femaleSeats prev;
    paymentSlip := result |})).

(** [handleFileChange], lines 52-73.  [files] is [e.target.files]:
    [null] or a list of files; [e.target.files?.[0]] is its first file,
    if any.  Starting the decode is the call [readAsDataURL file] on a
    fresh reader whose [onloadend] is [reader_onloadend]; the handler
    itself writes no state. *)
Definition handleFileChange (files : option (list File)) : M unit :=
  let file := match files with
              | None => None
              | Some l => head l
              end in
  match file with
  | Some file =>
      if (3 * 1024 * 1024 <? size file)%N then
        perform (Swal_fire fileTooLarge)
      else
        perform (readAsDataURL file)
  | None => mret tt
  end.

(** [removeFile], lines 75-78. *)
Definition removeFile : M unit :=
  setFormData (Updater (fun prev => {|
    name := name prev; phone := phone prev; from := from prev;
    to := to prev; date := date prev; time := time prev;
    bus := bus prev;
    maleSeats := maleSeats prev;
    femaleSeats := femaleSeats prev;
    paymentSlip := JS.str "" |})) ;;
  setFileInputValue (JS.str "").

(** [handleSubmit], lines 80-107. *)
Definition handleSubmit : M unit :=
  perform preventDefault ;;
  formData ← readFormData ;
  if (maleSeats formData =? 0) && (femaleSeats formData =? 0) then
    perform (Swal_fire seatSelectionRequired)
  else if (Z.of_nat (length (phone formData)) <? 9) then
    perform (Swal_fire invalidPhoneNumber)
  else
    perform (onSubmit formData).

(** The [onChange] of the phone input, line 235, with [e.target.value]. *)
Definition phone_onChange (value : JS.string) : M unit :=
  formData ← readFormData ;
  setFormData (Value {|
    name := name formData;
    phone := JS.slice (JS.replace_class_g JS.class_D (JS.str "") value) 0 10;
    from := from formData;
    to := to formData;
    date := date formData;
    time := time formData;
    bus := bus formData;
    maleSeats := maleSeats formData;
    femaleSeats := femaleSeats formData;
    paymentSlip := paymentSlip formData |}).

End BookingForm.

(** ** The specification's words *)

(** A digit is one of the ten characters [0] to [9]. *)
Definition is_digit (c : JS.code_unit) : bool :=
  existsb (N.eqb c) (JS.str "0123456789").

(** The stored phone number as the specification words it: remove every
    character that is not a digit, then keep the first 10 characters. *)
Definition sanitized_phone (input : JS.string) : JS.string :=
  take 10 (List.filter is_digit input).

(** The submission gate as the specification words it. *)
Definition submission_allowed (d : BookingFormData.t) : Prop :=
  ~ (maleSeats d = 0 /\ femaleSeats d = 0) /\ (9 <= length (phone d))%nat.

(** The count of a seat kind in a draft. *)
Definition seats (type : SeatType) (d : BookingFormData.t) : Z :=
  match type with
  | male => maleSeats d
  | female => femaleSeats d
  end.

(** The other seat kind. *)
Definition other (type : SeatType) : SeatType :=
  match type with
  | male => female
  | female => male
  end.

(** The size cap, 3 MB in bytes. *)
Definition size_cap : N := 3145728.

(** ** Sample data for the examples *)

Definition sample_services : gmap JS.string BusService.t :=
  <[ JS.str "Night Express" :=
       BusService.mk (JS.str "21:30") 2500 ]>
  (<[ JS.str "Morning Line" :=
       BusService.mk (JS.str "06:00") 1800 ]> ∅).

Definition sample_draft : BookingFormData.t := {|
  name := JS.str "A. Perera";
  phone := JS.str "0771234567";
  from := JS.str "Colombo";
  to := JS.str "Jaffna";
  date := JS.str "2026-01-15";
  time := JS.text (JS.str "21:30");
  bus := JS.str "Night Express";
  maleSeats := 1;
  femaleSeats := 0;
  paymentSlip := JS.str "data:image/png;base64,iVBORw0KGgo="
|}.

Definition sample_state : State := {|
  formData := sample_draft;
  fileInputRef := Some {| value := JS.str "C:/fakepath/slip.png" |}
|}.

(** ** The rest of the component: initial draft, text inputs, sessions *)

(** The initial draft, lines 13-24.  [tomorrow] stands for the value of
    [new Date(Date.now() + 86400000).toISOString().split('T')[0]], the date
    one day after the component is mounted. *)
Definition initialFormData (tomorrow : JS.string) : BookingFormData.t := {|
  name := JS.str "";
  phone := JS.str "";
  from := JS.str "";
  to := JS.str "";
  date := tomorrow;
  time := JS.text (JS.str "");
  bus := JS.str "";
  maleSeats := 0;
  femaleSeats := 0;
  paymentSlip := JS.str ""
|}.

Definition initialState (tomorrow : JS.string)
    (input : option HTMLInputElement) : State :=
  {| formData := initialFormData tomorrow; fileInputRef := input |}.

(** The [onChange] of the pickup select, line 141. *)
Definition from_onChange (value : JS.string) : M unit :=
  formData ← readFormData ;
  setFormData (Value {|
    name := name formData; phone := phone formData;
    from := value;
    to := to formData; date := date formData; time := time formData;
    bus := bus formData; maleSeats := maleSeats formData;
    femaleSeats := femaleSeats formData;
    paymentSlip := paymentSlip formData |}).

(** The [onChange] of the destination select, line 159. *)
Definition to_onChange (value : JS.string) : M unit :=
  formData ← readFormData ;
  setFormData (Value {|
    name := name formData; phone := phone formData;
    from := from formData;
    to := value;
    date := date formData; time := time formData;
    bus := bus formData; maleSeats := maleSeats formData;
    femaleSeats := femaleSeats formData;
    paymentSlip := paymentSlip formData |}).

(** The [onChange] of the date input, line 178. *)
Definition date_onChange (value : JS.string) : M unit :=
  formData ← readFormData ;
  setFormData (Value {|
    name := name formData; phone := phone formData;
    from := from formData; to := to formData;
    date := value;
    time := time formData;
    bus := bus formData; maleSeats := maleSeats formData;
    femaleSeats := femaleSeats formData;
    paymentSlip := paymentSlip formData |}).

(** The [onChange] of the name input, line 222. *)
Definition name_onChange (value : JS.string) : M unit :=
  formData ← readFormData ;
  setFormData (Value {|
    name := value;
    phone := phone formData;
    from := from formData; to := to formData; date := date formData;
    time := time formData;
    bus := bus formData; maleSeats := maleSeats formData;
    femaleSeats := femaleSeats formData;
    paymentSlip := paymentSlip formData |}).

(** What can happen to the mounted component: the change events of its
    inputs, the clicks on its buttons, the submission of its form, and the
    completion of a decode it started. *)
Inductive Event :=
| from_change (value : JS.string)
| to_change (value : JS.string)
| date_change (value : JS.string)
| bus_change (value : JS.string)
| name_change (value : JS.string)
| phone_change (value : JS.string)
| seat_minus (type : SeatType)
| seat_plus (type : SeatType)
| file_change (files : option (list File))
| reader_loadend (result : JS.string)
| remove_click
| submit.

Section Sessions.

Variable BUS_SERVICES : gmap JS.string BusService.t.

(** The handler the JSX attaches to each event (lines 141, 159, 178, 193,
    222, 235, 251, 259, 273, 281, 360, 68, 345, 126). *)
Definition dispatch (e : Event) : M unit :=
  match e with
  | from_change value => from_onChange value
  | to_change value => to_onChange value
  | date_change value => date_onChange value
  | bus_change value => handleBusChange BUS_SERVICES value
  | name_change value => name_onChange value
  | phone_change value => phone_onChange value
  | seat_minus type => updateSeats type (-1)
  | seat_plus type => updateSeats type 1
  | file_change files => handleFileChange files
  | reader_loadend result => reader_onloadend result
  | remove_click => removeFile
  | submit => handleSubmit
  end.

(** A session: the events handled one after the other.  A completion
    [reader_loadend] may stand anywhere in a session, which covers every
    order in which the completions of started decodes can arrive. *)
Fixpoint session (es : list Event) : M unit :=
  match es with
  | [] => mret tt
  | e :: es' => dispatch e ;; session es'
  end.

(** [time] follows [bus]: nothing is selected yet and [time] is empty; or
    [bus] is a key of the table and [time] is the time of its service; or
    [bus] is no key but the name of a member of [Object.prototype] and
    [time] is [undefined]; or [bus] is neither and [time] is empty. *)
Definition time_synced (d : BookingFormData.t) : Prop :=
  (bus d = JS.str "" /\ time d = JS.text (JS.str "")) \/
  (exists service, BUS_SERVICES !! bus d = Some service
                   /\ time d = JS.text (BusService.time service)) \/
  ((bus d ∉ dom BUS_SERVICES) /\ (bus d ∈ JS.Object_prototype_names)
   /\ time d = JS.undefined) \/
  ((bus d ∉ dom BUS_SERVICES) /\ (bus d ∉ JS.Object_prototype_names)
   /\ time d = JS.text (JS.str "")).

End Sessions.

(** Both seat counts are within [0, 10]. *)
Definition seats_in_range (d : BookingFormData.t) : Prop :=
  0 <= maleSeats d <= 10 /\ 0 <= femaleSeats d <= 10.

(** The phone is made of digits and has at most 10 of them. *)
Definition phone_digits (d : BookingFormData.t) : Prop :=
  Forall (fun c => is_digit c = true) (phone d) /\ (length (phone d) <= 10)%nat.

(** The event is the completion of a decode. *)
Definition is_loadend (e : Event) : bool :=
  match e with
  | reader_loadend _ => true
  | _ => false
  end.

(** What an event's handler writes: one of the ten fields of the draft
    ([bus] and [time] go together), or nothing. *)
Inductive Field :=
| f_name | f_phone | f_from | f_to | f_date | f_bus_time
| f_maleSeats | f_femaleSeats | f_paymentSlip.

Definition written_field (e : Event) : option Field :=
  match e with
  | from_change _ => Some f_from
  | to_change _ => Some f_to
  | date_change _ => Some f_date
  | bus_change _ => Some f_bus_time
  | name_change _ => Some f_name
  | phone_change _ => Some f_phone
  | seat_minus male | seat_plus male => Some f_maleSeats
  | seat_minus female | seat_plus female => Some f_femaleSeats
  | reader_loadend _ | remove_click => Some f_paymentSlip
  | file_change _ | submit => None
  end.

(** The events whose handler passes [setFormData] a value built from the
    [formData] of the last render (lines 141, 159, 178, 222, 235); the
    other handlers pass an updater of the previous state, or write
    nothing. *)
Definition spreads_render (e : Event) : bool :=
  match e with
  | from_change _ | to_change _ | date_change _ | name_change _
  | phone_change _ => true
  | _ => false
  end.

(** ** Facts about the library functions *)

Lemma replace_class_g_empty (C : JS.code_unit -> bool) (s : JS.string) :
  JS.replace_class_g C [] s = List.filter (fun c => negb (C c)) s.
Proof.
  induction s as [|c rest IH]; [reflexivity|].
  cbn [JS.replace_class_g List.filter].
  destruct (C c); cbn [negb app]; now rewrite IH.
Qed.

Lemma slice_prefix (s : JS.string) (n : Z) :
  0 <= n -> JS.slice s 0 n = take (Z.to_nat n) s.
Proof.
  intros Hn. unfold JS.slice.
  replace (0 <? 0) with false by reflexivity.
  destruct (Z.ltb_spec n 0) as [?|_]; [lia|].
  set (len := Z.of_nat (length s)).
  assert (Hlen : 0 <= len) by (subst len; lia).
  rewrite (Z.min_l 0 len) by exact Hlen.
  destruct (Z.geb_spec 0 (Z.min n len)) as [Hle|Hlt].
  - assert (Hcase : n = 0 \/ len = 0) by lia.
    destruct Hcase as [->|H0]; [reflexivity|].
    assert (length s = 0%nat) as Hs by (subst len; lia).
    destruct s; [now rewrite take_nil|discriminate].
  - rewrite Z.sub_0_r. change (Z.to_nat 0) with 0%nat. rewrite drop_0.
    destruct (Z.le_ge_cases n len) as [Hnl|Hnl].
    + now rewrite Z.min_l.
    + rewrite Z.min_r by exact Hnl.
      rewrite !take_ge; subst len; [reflexivity|lia|lia].
Qed.

(** [\d] matches exactly the ten digit characters. *)
Lemma class_d_is_digit (c : JS.code_unit) : JS.class_d c = is_digit c.
Proof.
  unfold JS.class_d, is_digit.
  destruct (N.leb_spec 48 c) as [Hlo|Hlo], (N.leb_spec c 57) as [Hhi|Hhi];
    cbn [andb].
  - assert (Hc : (c = 48 \/ c = 49 \/ c = 50 \/ c = 51 \/ c = 52 \/
                  c = 53 \/ c = 54 \/ c = 55 \/ c = 56 \/ c = 57)%N) by lia.
    repeat destruct Hc as [->|Hc]; try subst c; reflexivity.
  - symmetry. apply not_true_is_false. intros H.
    apply existsb_exists in H as (k & Hin & Heq).
    apply N.eqb_eq in Heq. subst k. cbn in Hin. lia.
  - symmetry. apply not_true_is_false. intros H.
    apply existsb_exists in H as (k & Hin & Heq).
    apply N.eqb_eq in Heq. subst k. cbn in Hin. lia.
  - lia.
Qed.

(** The stored phone number computed by the source is the one the
    specification words. *)
Lemma replace_slice_sanitized (input : JS.string) :
  JS.slice (JS.replace_class_g JS.class_D (JS.str "") input) 0 10
  = sanitized_phone input.
Proof.
  rewrite slice_prefix by lia.
  change (JS.str "") with (@nil N).
  rewrite replace_class_g_empty. unfold sanitized_phone.
  change (Z.to_nat 10) with 10%nat. f_equal.
  induction input as [|c rest IH]; [reflexivity|].
  cbn [List.filter]. unfold JS.class_D at 1.
  rewrite negb_involutive, class_d_is_digit, IH. reflexivity.
Qed.

(** ** The submission gate *)

(** Unfolding a handler down to the state and trace it produces. *)
Ltac run_handler :=
  unfold state_after, trace, handleSubmit, phone_onChange, handleBusChange,
    updateSeats, handleFileChange, removeFile, reader_onloadend,
    mbind, M_bind, mret, M_ret, perform, readFormData, setFormData,
    setFileInputValue;
  cbn [fst snd app formData fileInputRef].

(** C1.  For every draft, [handleSubmit] calls [onSubmit] if and only if
    the seat counts are not both 0 and the phone has at least 9
    characters.  When it does, [onSubmit] is called exactly once, with the
    current draft, and no alert is shown; when it does not, [onSubmit] is
    not called and the alert shown is the one of the first violated check,
    the seat check before the phone check.  In every case the state (the
    draft included) is left as it was. *)
Theorem handleSubmit_gate (st : State) :
  let d := formData st in
  let t := trace handleSubmit st in
  state_after handleSubmit st = st /\
  (onSubmit_calls t <> [] <-> submission_allowed d) /\
  (submission_allowed d -> onSubmit_calls t = [d] /\ alerts t = []) /\
  (~ submission_allowed d -> onSubmit_calls t = []) /\
  (maleSeats d = 0 /\ femaleSeats d = 0 ->
   alerts t = [seatSelectionRequired]) /\
  (~ (maleSeats d = 0 /\ femaleSeats d = 0) ->
   (length (phone d) < 9)%nat ->
   alerts t = [invalidPhoneNumber]).
Proof.
  destruct st as [d ref]. unfold submission_allowed. run_handler.
  destruct (Z.eqb_spec (maleSeats d) 0) as [Hm|Hm];
    [destruct (Z.eqb_spec (femaleSeats d) 0) as [Hf|Hf]|];
    cbn [andb];
    try destruct (Z.ltb_spec (Z.of_nat (length (phone d))) 9) as [Hp|Hp];
    cbn [fst snd app onSubmit_calls alerts];
    repeat split; intros; try tauto; try lia; try discriminate.
Qed.

(** The three submissions of the specification's section 8. *)
Example submit_no_seats :
  let st := {| formData := {|
                 name := name sample_draft; phone := phone sample_draft;
                 from := from sample_draft; to := to sample_draft;
                 date := date sample_draft; time := time sample_draft;
                 bus := bus sample_draft;
                 maleSeats := 0; femaleSeats := 0;
                 paymentSlip := paymentSlip sample_draft |};
               fileInputRef := None |} in
  handleSubmit st = (tt, st, [preventDefault; Swal_fire seatSelectionRequired]).
Proof. reflexivity. Qed.

Example submit_short_phone :
  let st := {| formData := {|
                 name := name sample_draft; phone := JS.str "12345";
                 from := from sample_draft; to := to sample_draft;
                 date := date sample_draft; time := time sample_draft;
                 bus := bus sample_draft;
                 maleSeats := 1; femaleSeats := 0;
                 paymentSlip := paymentSlip sample_draft |};
               fileInputRef := None |} in
  handleSubmit st = (tt, st, [preventDefault; Swal_fire invalidPhoneNumber]).
Proof. reflexivity. Qed.

Example submit_valid :
  handleSubmit sample_state
  = (tt, sample_state, [preventDefault; onSubmit sample_draft]).
Proof. reflexivity. Qed.

(** With no seat selected and a short phone, only the seat alert shows. *)
Example submit_both_violated :
  let st := {| formData := {|
                 name := []; phone := JS.str "077"; from := []; to := [];
                 date := []; time := JS.text []; bus := [];
                 maleSeats := 0; femaleSeats := 0; paymentSlip := [] |};
               fileInputRef := None |} in
  trace handleSubmit st = [preventDefault; Swal_fire seatSelectionRequired].
Proof. reflexivity. Qed.

(** ** Pricing and the bus selection *)

Section ServiceTable.

Variable BUS_SERVICES : gmap JS.string BusService.t.

(** Where the claims about the lookup hold: for a bus that is a key of
    the table, and for one that is neither a key nor the name of a member
    of [Object.prototype]. *)
Lemma calculateTotal_own_or_absent (d : BookingFormData.t) :
  ((bus d ∉ dom BUS_SERVICES) -> (bus d ∉ JS.Object_prototype_names) ->
   calculateTotal BUS_SERVICES d = JS.num 0) /\
  (forall service : BusService.t,
     BUS_SERVICES !! bus d = Some service ->
     calculateTotal BUS_SERVICES d
     = JS.num (BusService.price service * (maleSeats d + femaleSeats d))).
Proof.
  unfold calculateTotal, BUS_SERVICES_get. split.
  - intros Hkey Hproto. apply not_elem_of_dom in Hkey. rewrite Hkey.
    now destruct (decide (bus d ∈ JS.Object_prototype_names)).
  - intros service ->. reflexivity.
Qed.

Lemma handleBusChange_own_or_absent (busName : JS.string) (st : State) :
  let d' := formData (state_after (handleBusChange BUS_SERVICES busName) st) in
  bus d' = busName /\
  (forall service : BusService.t,
     BUS_SERVICES !! busName = Some service ->
     time d' = JS.text (BusService.time service)) /\
  ((busName ∉ dom BUS_SERVICES) -> (busName ∉ JS.Object_prototype_names) ->
   time d' = JS.text (JS.str "")).
Proof.
  run_handler. unfold BUS_SERVICES_get. cbn [bus time].
  split; [reflexivity|]. split.
  - intros service ->. reflexivity.
  - intros Hkey Hproto. apply not_elem_of_dom in Hkey. rewrite Hkey.
    now destruct (decide (busName ∈ JS.Object_prototype_names)).
Qed.



(** C10.  [handleBusChange] changes only [bus] and [time]: the other
    eight fields of the draft keep their values (and so does the file
    input, and no collaborator is called). *)
Theorem handleBusChange_frame (busName : JS.string) (st : State) :
  let d := formData st in
  let st' := state_after (handleBusChange BUS_SERVICES busName) st in
  let d' := formData st' in
  name d' = name d /\ phone d' = phone d /\
  from d' = from d /\ to d' = to d /\ date d' = date d /\
  maleSeats d' = maleSeats d /\ femaleSeats d' = femaleSeats d /\
  paymentSlip d' = paymentSlip d /\
  fileInputRef st' = fileInputRef st /\
  trace (handleBusChange BUS_SERVICES busName) st = [].
Proof.
  run_handler. cbn. repeat split.
Qed.

End ServiceTable.



(** An empty selection is not a key of the sample table: the total is 0. *)
Example total_unselected :
  calculateTotal sample_services {|
    name := []; phone := []; from := []; to := []; date := [];
    time := JS.text [];
    bus := JS.str ""; maleSeats := 2; femaleSeats := 3; paymentSlip := [] |}
  = JS.num 0.
Proof. vm_compute. reflexivity. Qed.

Example total_sample :
  calculateTotal sample_services {|
    name := []; phone := []; from := []; to := []; date := [];
    time := JS.text [];
    bus := JS.str "Morning Line"; maleSeats := 2; femaleSeats := 3;
    paymentSlip := [] |}
  = JS.num 9000.
Proof. vm_compute. reflexivity. Qed.

Example bus_change_sample :
  let d' := formData (state_after
              (handleBusChange sample_services (JS.str "Morning Line"))
              sample_state) in
  bus d' = JS.str "Morning Line" /\ time d' = JS.text (JS.str "06:00").
Proof. vm_compute. split; reflexivity. Qed.

Example bus_change_unknown :
  let d' := formData (state_after
              (handleBusChange sample_services (JS.str "Ghost Bus"))
              sample_state) in
  bus d' = JS.str "Ghost Bus" /\ time d' = JS.text (JS.str "").
Proof. vm_compute. split; reflexivity. Qed.

(** ** Seat counts *)

(** C3.  [updateSeats type delta] sets the count of [type] to
    [max 0 (min 10 (current + delta))] and changes no other field; the new
    count is within [0, 10]; [-1] at 0 leaves 0 and [+1] at 10 leaves
    10. *)
Theorem updateSeats_clamp (type : SeatType) (delta : Z) (st : State) :
  let d := formData st in
  let st' := state_after (updateSeats type delta) st in
  let d' := formData st' in
  seats type d' = Z.max 0 (Z.min 10 (seats type d + delta)) /\
  (seats (other type) d' = seats (other type) d /\
   name d' = name d /\ phone d' = phone d /\ from d' = from d /\
   to d' = to d /\ date d' = date d /\ time d' = time d /\
   bus d' = bus d /\ paymentSlip d' = paymentSlip d /\
   fileInputRef st' = fileInputRef st) /\
  0 <= seats type d' <= 10 /\
  (seats type d = 0 -> delta = -1 -> seats type d' = 0) /\
  (seats type d = 10 -> delta = 1 -> seats type d' = 10).
Proof.
  run_handler. destruct type; cbn; repeat split; intros; lia.
Qed.

Example updateSeats_steps :
  let st1 := state_after (updateSeats female 1) sample_state in
  let st2 := state_after (updateSeats male (-1)) st1 in
  let st3 := state_after (updateSeats male (-1)) st2 in
  let st4 := state_after (updateSeats female 25) st3 in
  (maleSeats (formData st1), femaleSeats (formData st1)) = (1, 1) /\
  (maleSeats (formData st2), femaleSeats (formData st2)) = (0, 1) /\
  (maleSeats (formData st3), femaleSeats (formData st3)) = (0, 1) /\
  (maleSeats (formData st4), femaleSeats (formData st4)) = (0, 10).
Proof. vm_compute. repeat split. Qed.

(** ** The phone input *)

(** C4.  For every input string, the phone [onChange] stores the input
    with every non-digit character removed, cut to its first 10
    characters; ["07abc71234567"] is stored as ["0771234567"].  No input
    is rejected: the handler stores for every input and shows no alert. *)
Theorem phone_onChange_sanitizes (value : JS.string) (st : State) :
  phone (formData (state_after (phone_onChange value) st))
  = sanitized_phone value /\
  phone (formData (state_after (phone_onChange (JS.str "07abc71234567")) st))
  = JS.str "0771234567" /\
  trace (phone_onChange value) st = [].
Proof.
  run_handler. cbn [phone]. split; [apply replace_slice_sanitized|].
  split; reflexivity.
Qed.

(** What is stored is made of digits and has at most 10 characters. *)
Lemma sanitized_phone_digits (input : JS.string) :
  Forall (fun c => is_digit c = true) (sanitized_phone input) /\
  (length (sanitized_phone input) <= 10)%nat.
Proof.
  unfold sanitized_phone. split.
  - apply Forall_take. apply List.Forall_forall. intros c Hc.
    now apply List.filter_In in Hc.
  - rewrite length_take. lia.
Qed.

Example phone_non_ascii :
  sanitized_phone ([1633; 55357; 56832]%N ++ JS.str "+94 (77) 123-4567 ext 89")
  = JS.str "9477123456".
Proof. reflexivity. Qed.

(** ** The payment slip *)

(** C6.  For every selected file larger than 3 MB and every prior state,
    [handleFileChange] stops before the decode: no [readAsDataURL] call is
    made, the state is the prior state ([paymentSlip] and every other
    field of the draft included), and the "File too large" alert is
    shown. *)
Theorem handleFileChange_too_large
    (file : File) (rest : list File) (st : State) :
  (size_cap < size file)%N ->
  let h := handleFileChange (Some (file :: rest)) in
  decodes (trace h st) = [] /\
  state_after h st = st /\
  paymentSlip (formData (state_after h st)) = paymentSlip (formData st) /\
  alerts (trace h st) = [fileTooLarge].
Proof.
  intros Hsize. run_handler. cbn [head].
  destruct (N.ltb_spec (3 * 1024 * 1024) (size file)) as [_|Hle].
  - cbn. repeat split.
  - exfalso. unfold size_cap in Hsize. lia.
Qed.

(** A file of 4 MB. *)
Lemma handleFileChange_too_large_4MB :
  (size_cap < size {| size := 4 * 1024 * 1024 |})%N /\
  let h := handleFileChange (Some [ {| size := 4 * 1024 * 1024 |} ]) in
  decodes (trace h sample_state) = [] /\
  state_after h sample_state = sample_state /\
  paymentSlip (formData (state_after h sample_state))
  = paymentSlip (formData sample_state) /\
  alerts (trace h sample_state) = [fileTooLarge].
Proof.
  split.
  - reflexivity.
  - apply (handleFileChange_too_large
             {| size := 4 * 1024 * 1024 |} [] sample_state).
    reflexivity.
Defined.

(** C7.  [removeFile] sets [paymentSlip] to the empty string and leaves
    every other field of the draft as it was. *)
Theorem removeFile_clears_slip (st : State) :
  let d := formData st in
  let d' := formData (state_after removeFile st) in
  paymentSlip d' = JS.str "" /\
  name d' = name d /\ phone d' = phone d /\ from d' = from d /\
  to d' = to d /\ date d' = date d /\ time d' = time d /\
  bus d' = bus d /\ maleSeats d' = maleSeats d /\
  femaleSeats d' = femaleSeats d.
Proof.
  run_handler. destruct (fileInputRef st); cbn; repeat split.
Qed.

(** [removeFile] also empties the value of the file input, when the
    reference holds the element, and calls no collaborator. *)
Lemma removeFile_resets_input (st : State) :
  fileInputRef (state_after removeFile st)
  = match fileInputRef st with
    | Some _ => Some {| value := JS.str "" |}
    | None => None
    end /\
  trace removeFile st = [].
Proof.
  run_handler. destruct (fileInputRef st); cbn; split; reflexivity.
Qed.

(** A slip is loaded, then removed: [paymentSlip] is empty again. *)
Example load_then_remove :
  let loaded := state_after
                  (reader_onloadend (JS.str "data:image/jpeg;base64,/9j/4AAQ"))
                  sample_state in
  paymentSlip (formData loaded) = JS.str "data:image/jpeg;base64,/9j/4AAQ" /\
  paymentSlip (formData (state_after removeFile loaded)) = JS.str "".
Proof. split; reflexivity. Qed.

(** C8.  When the change event carries no file (an empty file list, or no
    list at all), [handleFileChange] does nothing: the state is unchanged,
    no alert is shown and no decode is started. *)
Theorem handleFileChange_no_file (st : State) :
  handleFileChange (Some []) st = (tt, st, []) /\
  handleFileChange None st = (tt, st, []).
Proof.
  split; reflexivity.
Qed.

(** C9.  The cap is a strict comparison with [3 * 1024 * 1024 = 3145728]
    bytes: the file is rejected if and only if its size is greater than
    3145728; otherwise, and so at exactly 3145728 bytes, its decode is
    started. *)
Theorem handleFileChange_strict_cap
    (file : File) (rest : list File) (st : State) :
  let t := trace (handleFileChange (Some (file :: rest))) st in
  (3 * 1024 * 1024 = size_cap)%N /\
  (t = [Swal_fire fileTooLarge] <-> (size_cap < size file)%N) /\
  (t = [readAsDataURL file] <-> (size file <= size_cap)%N) /\
  (size file = size_cap -> t = [readAsDataURL file]).
Proof.
  run_handler. cbn [head]. unfold size_cap.
  destruct (N.ltb_spec (3 * 1024 * 1024) (size file)) as [Hlt|Hle]; cbn;
    repeat split; intros; try reflexivity; try discriminate; try lia.
Qed.

Example file_at_cap :
  trace (handleFileChange (Some [ {| size := 3145728 |} ])) sample_state
  = [readAsDataURL {| size := 3145728 |}].
Proof. reflexivity. Qed.

Example file_above_cap :
  trace (handleFileChange (Some [ {| size := 3145729 |} ])) sample_state
  = [Swal_fire fileTooLarge].
Proof. reflexivity. Qed.

(** ** Sessions: what every sequence of events keeps *)

Lemma session_cons_state (B : gmap JS.string BusService.t)
    (e : Event) (es : list Event) (st : State) :
  state_after (session B (e :: es)) st
  = state_after (session B es) (state_after (dispatch B e) st).
Proof.
  unfold state_after. cbn [session]. unfold mbind, M_bind.
  destruct (dispatch B e st) as [[a st1] t1]. cbn [fst snd].
  destruct (session B es st1) as [[b st2] t2]. reflexivity.
Qed.

Lemma session_cons_trace (B : gmap JS.string BusService.t)
    (e : Event) (es : list Event) (st : State) :
  trace (session B (e :: es)) st
  = trace (dispatch B e) st
    ++ trace (session B es) (state_after (dispatch B e) st).
Proof.
  unfold state_after, trace. cbn [session]. unfold mbind, M_bind.
  destruct (dispatch B e st) as [[a st1] t1]. cbn [fst snd].
  destruct (session B es st1) as [[b st2] t2]. reflexivity.
Qed.

(** Unfolding the handler of an event, by cases on what the handler
    tests. *)
Ltac run_cases st :=
  unfold state_after, trace, dispatch, from_onChange, to_onChange,
    date_onChange, name_onChange, handleSubmit, phone_onChange,
    handleBusChange, updateSeats, handleFileChange, removeFile,
    reader_onloadend, mbind, M_bind, mret, M_ret, perform, readFormData,
    setFormData, setFileInputValue;
  cbn [fst snd app formData fileInputRef];
  try match goal with
      | ty : SeatType |- _ => destruct ty
      end;
  try match goal with
      | files : option (list File) |- _ =>
          destruct files as [[|file rest]|]; cbn [head];
          try destruct (3 * 1024 * 1024 <? size file)%N
      end;
  try match goal with
      | |- context [match fileInputRef st with _ => _ end] =>
          destruct (fileInputRef st)
      end;
  try match goal with
      | |- context [(maleSeats (formData st) =? 0)
                    && (femaleSeats (formData st) =? 0)] =>
          destruct ((maleSeats (formData st) =? 0)
                    && (femaleSeats (formData st) =? 0));
          try destruct (Z.of_nat (length (phone (formData st))) <? 9)
      end;
  cbn [fst snd app formData fileInputRef name phone from to date time bus
       maleSeats femaleSeats paymentSlip].

Ltac run_event e st :=
  destruct e as [v|v|v|v|v|v|ty|ty|files|r| | ]; run_cases st.

(** A property of the draft that every handler keeps is kept by every
    session. *)
Lemma session_keeps (B : gmap JS.string BusService.t)
    (P : BookingFormData.t -> Prop) :
  (forall e st, P (formData st) -> P (formData (state_after (dispatch B e) st))) ->
  forall es st, P (formData st) -> P (formData (state_after (session B es) st)).
Proof.
  intros Hstep es. induction es as [|e es IH]; intros st HP.
  - exact HP.
  - rewrite session_cons_state. apply IH, Hstep, HP.
Qed.

Lemma dispatch_seats_in_range (B : gmap JS.string BusService.t)
    (e : Event) (st : State) :
  seats_in_range (formData st) ->
  seats_in_range (formData (state_after (dispatch B e) st)).
Proof.
  unfold seats_in_range. intros H. run_event e st; lia.
Qed.

Lemma dispatch_phone_digits (B : gmap JS.string BusService.t)
    (e : Event) (st : State) :
  phone_digits (formData st) ->
  phone_digits (formData (state_after (dispatch B e) st)).
Proof.
  unfold phone_digits. intros H. run_event e st; try exact H.
  rewrite replace_slice_sanitized. apply sanitized_phone_digits.
Qed.

Lemma dispatch_time_synced (B : gmap JS.string BusService.t)
    (e : Event) (st : State) :
  time_synced B (formData st) ->
  time_synced B (formData (state_after (dispatch B e) st)).
Proof.
  unfold time_synced. intros H. run_event e st; try exact H.
  unfold BUS_SERVICES_get.
  destruct (B !! v) as [service|] eqn:Hv.
  - right; left. now exists service.
  - apply not_elem_of_dom in Hv.
    destruct (decide (v ∈ JS.Object_prototype_names)).
    + right; right; left. repeat split; assumption.
    + right; right; right. repeat split; assumption.
Qed.

Lemma onSubmit_calls_app (t1 t2 : list Effect) :
  onSubmit_calls (t1 ++ t2) = onSubmit_calls t1 ++ onSubmit_calls t2.
Proof.
  induction t1 as [|[ | | |] t1 IH]; cbn; now rewrite ?IH.
Qed.

Lemma decodes_app (t1 t2 : list Effect) :
  decodes (t1 ++ t2) = decodes t1 ++ decodes t2.
Proof.
  induction t1 as [|[ | | |] t1 IH]; cbn; now rewrite ?IH.
Qed.

(** What [handleSubmit] hands to [onSubmit]: the draft, when the gate is
    open, and nothing otherwise. *)
Lemma handleSubmit_calls (st : State) :
  (submission_allowed (formData st)
   /\ onSubmit_calls (trace handleSubmit st) = [formData st])
  \/ (~ submission_allowed (formData st)
      /\ onSubmit_calls (trace handleSubmit st) = []).
Proof.
  unfold submission_allowed. run_handler.
  destruct (Z.eqb_spec (maleSeats (formData st)) 0) as [Hm|Hm];
    [destruct (Z.eqb_spec (femaleSeats (formData st)) 0) as [Hf|Hf]|];
    cbn [andb];
    try destruct (Z.ltb_spec (Z.of_nat (length (phone (formData st)))) 9)
      as [Hp|Hp];
    cbn [fst snd app onSubmit_calls];
    first [ left; split; [split; [tauto|lia]|reflexivity]
          | right; split; [intros [? ?]; first [tauto|lia]|reflexivity] ].
Qed.

Lemma handleSubmit_state (st : State) : state_after handleSubmit st = st.
Proof.
  run_handler.
  destruct ((maleSeats (formData st) =? 0) && (femaleSeats (formData st) =? 0));
    [|destruct (Z.of_nat (length (phone (formData st))) <? 9)];
    reflexivity.
Qed.

Lemma dispatch_onSubmit_calls (B : gmap JS.string BusService.t)
    (e : Event) (st : State) (d : BookingFormData.t) :
  In d (onSubmit_calls (trace (dispatch B e) st)) ->
  e = submit /\ d = formData st /\ submission_allowed d.
Proof.
  destruct e as [v|v|v|v|v|v|ty|ty|files|r| | ];
    try (run_cases st; cbn; tauto).
  cbn [dispatch]. intros Hin.
  destruct (handleSubmit_calls st) as [[Hok Hcalls]|[_ Hcalls]];
    rewrite Hcalls in Hin; cbn in Hin; [|tauto].
  destruct Hin as [<-|[]]. tauto.
Qed.

Lemma dispatch_decodes (B : gmap JS.string BusService.t)
    (e : Event) (st : State) (f : File) :
  In f (decodes (trace (dispatch B e) st)) ->
  (size f <= size_cap)%N
  /\ exists rest, e = file_change (Some (f :: rest)).
Proof.
  destruct e as [v|v|v|v|v|v|ty|ty|files|r| | ];
    try (run_cases st; cbn; tauto).
  cbn [dispatch]. run_handler.
  destruct files as [[|file rest]|]; cbn [head]; try (cbn; tauto).
  destruct (N.ltb_spec (3 * 1024 * 1024) (size file)) as [Hlt|Hle];
    cbn; [tauto|].
  intros [<-|[]]. split; [unfold size_cap; lia|]. now exists rest.
Qed.

(** The drafts a session submits satisfy what every handler keeps, and
    passed the gate. *)
Lemma session_submitted (B : gmap JS.string BusService.t)
    (P : BookingFormData.t -> Prop) :
  (forall e st, P (formData st) -> P (formData (state_after (dispatch B e) st))) ->
  forall es st, P (formData st) ->
  Forall (fun d => P d /\ submission_allowed d)
         (onSubmit_calls (trace (session B es) st)).
Proof.
  intros Hstep es. induction es as [|e es IH]; intros st HP.
  - constructor.
  - rewrite session_cons_trace, onSubmit_calls_app.
    apply Forall_app. split.
    + apply List.Forall_forall. intros d Hd.
      apply dispatch_onSubmit_calls in Hd as (_ & -> & Hok). now split.
    + apply IH, Hstep, HP.
Qed.

(** X1.  Both seat counts stay within [0, 10]: they are 0 in the initial
    draft, and whatever events follow, in whatever order, a draft whose
    counts are in range keeps them in range. *)
Theorem session_seats_in_range (B : gmap JS.string BusService.t)
    (tomorrow : JS.string) (input : option HTMLInputElement)
    (es : list Event) :
  seats_in_range
    (formData (state_after (session B es) (initialState tomorrow input))) /\
  (forall st, seats_in_range (formData st) ->
              seats_in_range (formData (state_after (session B es) st))).
Proof.
  assert (Hall : forall st, seats_in_range (formData st) ->
            seats_in_range (formData (state_after (session B es) st))).
  { intros st. apply (session_keeps B). apply dispatch_seats_in_range. }
  split; [|exact Hall].
  apply Hall. unfold seats_in_range. cbn. lia.
Qed.

(** X2.  The stored phone is always made of digits only, at most 10 of
    them: this holds of the initial draft and is kept by every event of
    every session, whatever is typed into any input. *)
Theorem session_phone_digits (B : gmap JS.string BusService.t)
    (tomorrow : JS.string) (input : option HTMLInputElement)
    (es : list Event) :
  phone_digits
    (formData (state_after (session B es) (initialState tomorrow input))) /\
  (forall st, phone_digits (formData st) ->
              phone_digits (formData (state_after (session B es) st))).
Proof.
  assert (Hall : forall st, phone_digits (formData st) ->
            phone_digits (formData (state_after (session B es) st))).
  { intros st. apply (session_keeps B). apply dispatch_phone_digits. }
  split; [|exact Hall].
  apply Hall. unfold phone_digits. cbn. split; [constructor|lia].
Qed.

(** X3.  [time] never goes stale: in every state a session reaches from
    the initial draft, [time] is what the lookup of the current [bus]
    gives.  Either no bus has been selected yet and [time] is empty; or
    [bus] is a key of the table and [time] is the time of its service;
    or [bus] is no key but the name of a member of [Object.prototype]
    and [time] is [undefined]; or [bus] is neither and [time] is empty.
    Every session keeps this. *)
Theorem session_time_synced (B : gmap JS.string BusService.t)
    (tomorrow : JS.string) (input : option HTMLInputElement)
    (es : list Event) :
  time_synced B
    (formData (state_after (session B es) (initialState tomorrow input))) /\
  (forall st, time_synced B (formData st) ->
              time_synced B (formData (state_after (session B es) st))).
Proof.
  assert (Hall : forall st, time_synced B (formData st) ->
            time_synced B (formData (state_after (session B es) st))).
  { intros st. apply (session_keeps B). apply dispatch_time_synced. }
  split; [|exact Hall].
  apply Hall. left. split; reflexivity.
Qed.

(** X4.  Every draft that a session started from the initial draft hands
    to [onSubmit] has between 1 and 20 seats in all, each count within
    [0, 10], and a phone of 9 or 10 characters, all of them digits. *)
Theorem session_submits_valid_drafts (B : gmap JS.string BusService.t)
    (tomorrow : JS.string) (input : option HTMLInputElement)
    (es : list Event) :
  Forall (fun d =>
            1 <= maleSeats d + femaleSeats d <= 20 /\
            seats_in_range d /\
            (9 <= length (phone d) <= 10)%nat /\
            Forall (fun c => is_digit c = true) (phone d))
         (onSubmit_calls
            (trace (session B es) (initialState tomorrow input))).
Proof.
  eapply List.Forall_impl;
    [|apply (session_submitted B
               (fun d => seats_in_range d /\ phone_digits d))].
  - intros d [[Hseats [Hdig Hlen]] [Hsome Hphone]].
    unfold seats_in_range in *. repeat split; try tauto; try lia.
  - intros e st [Hs Hp]. split.
    + now apply dispatch_seats_in_range.
    + now apply dispatch_phone_digits.
  - unfold seats_in_range, phone_digits. cbn.
    repeat split; try lia. constructor.
Qed.

Example session_submits_once :
  onSubmit_calls
    (trace (session sample_services
              [ submit; phone_change (JS.str "077-123 4567"); submit;
                seat_plus female; bus_change (JS.str "Morning Line");
                submit ])
           (initialState (JS.str "2026-01-15") None))
  = [ {| name := JS.str ""; phone := JS.str "0771234567";
         from := JS.str ""; to := JS.str ""; date := JS.str "2026-01-15";
         time := JS.text (JS.str "06:00"); bus := JS.str "Morning Line";
         maleSeats := 0; femaleSeats := 1; paymentSlip := JS.str "" |} ].
Proof. vm_compute. reflexivity. Qed.

(** X5.  No session ever starts the decode of a file above the cap: every
    file passed to [readAsDataURL], from any state and after any events,
    has at most 3145728 bytes. *)
Theorem session_decodes_within_cap (B : gmap JS.string BusService.t)
    (es : list Event) (st : State) :
  Forall (fun f => (size f <= size_cap)%N)
         (decodes (trace (session B es) st)).
Proof.
  revert st. induction es as [|e es IH]; intros st.
  - constructor.
  - rewrite session_cons_trace, decodes_app. apply Forall_app. split.
    + apply List.Forall_forall. intros f Hf.
      now apply dispatch_decodes in Hf as [Hsize _].
    + apply IH.
Qed.

Example session_decodes_sample :
  decodes
    (trace (session sample_services
              [ file_change (Some [ {| size := 5000000 |} ]);
                file_change None;
                file_change (Some [ {| size := 3145728 |};
                                    {| size := 9000000 |} ]);
                file_change (Some [ {| size := 120000 |} ]) ])
           sample_state)
  = [ {| size := 3145728 |}; {| size := 120000 |} ].
Proof. vm_compute. reflexivity. Qed.

(** X6.  Selecting files never writes [paymentSlip] by itself: in a
    session from the initial draft in which no decode has completed,
    [paymentSlip] is still empty, whatever files were selected, accepted
    or rejected. *)
Theorem session_slip_needs_completion (B : gmap JS.string BusService.t)
    (tomorrow : JS.string) (input : option HTMLInputElement)
    (es : list Event) :
  Forall (fun e => is_loadend e = false) es ->
  paymentSlip
    (formData (state_after (session B es) (initialState tomorrow input)))
  = JS.str "".
Proof.
  intros Hes.
  assert (Hgen : forall st, paymentSlip (formData st) = JS.str "" ->
            paymentSlip (formData (state_after (session B es) st)) = JS.str "").
  { induction Hes as [|e es He _ IH]; intros st Hst; [exact Hst|].
    rewrite session_cons_state. apply IH.
    destruct e as [v|v|v|v|v|v|ty|ty|files|r| | ];
      try discriminate He; run_cases st; first [exact Hst|reflexivity]. }
  apply Hgen. reflexivity.
Qed.

Lemma session_slip_needs_completion_sample :
  Forall (fun e => is_loadend e = false)
         [ file_change (Some [ {| size := 5000000 |} ]);
           file_change (Some [ {| size := 2000 |} ]);
           seat_plus male; remove_click ] /\
  paymentSlip
    (formData (state_after
       (session sample_services
          [ file_change (Some [ {| size := 5000000 |} ]);
            file_change (Some [ {| size := 2000 |} ]);
            seat_plus male; remove_click ])
       (initialState (JS.str "2026-01-15") None)))
  = JS.str "".
Proof.
  assert (H : Forall (fun e => is_loadend e = false)
                [ file_change (Some [ {| size := 5000000 |} ]);
                  file_change (Some [ {| size := 2000 |} ]);
                  seat_plus male; remove_click ])
    by (repeat constructor).
  split; [exact H|].
  exact (session_slip_needs_completion sample_services
           (JS.str "2026-01-15") None _ H).
Defined.

(** ** The submission gate, continued *)

(** X7.  [handleSubmit] reads nothing but the two seat counts and the
    length of the phone: two drafts that agree on these get the same
    alerts and are both submitted or both held back, whatever their name,
    route, date, bus, time and payment slip (none of which is required by
    the handler). *)
Theorem handleSubmit_reads_seats_and_phone (st1 st2 : State) :
  maleSeats (formData st1) = maleSeats (formData st2) ->
  femaleSeats (formData st1) = femaleSeats (formData st2) ->
  length (phone (formData st1)) = length (phone (formData st2)) ->
  alerts (trace handleSubmit st1) = alerts (trace handleSubmit st2) /\
  (onSubmit_calls (trace handleSubmit st1) = [formData st1] /\
   onSubmit_calls (trace handleSubmit st2) = [formData st2]
   \/ onSubmit_calls (trace handleSubmit st1) = [] /\
      onSubmit_calls (trace handleSubmit st2) = []).
Proof.
  intros Hm Hf Hp. run_handler. rewrite Hm, Hf, Hp.
  destruct ((maleSeats (formData st2) =? 0) && (femaleSeats (formData st2) =? 0));
    [|destruct (Z.of_nat (length (phone (formData st2))) <? 9)];
    cbn; split; try reflexivity; tauto.
Qed.

Lemma handleSubmit_reads_seats_and_phone_sample :
  let bare := {| formData := {|
                   name := JS.str ""; phone := JS.str "9999999999";
                   from := JS.str ""; to := JS.str ""; date := JS.str "";
                   time := JS.text (JS.str ""); bus := JS.str "";
                   maleSeats := 1; femaleSeats := 0;
                   paymentSlip := JS.str "" |};
                 fileInputRef := None |} in
  alerts (trace handleSubmit sample_state) = alerts (trace handleSubmit bare) /\
  (onSubmit_calls (trace handleSubmit sample_state) = [formData sample_state] /\
   onSubmit_calls (trace handleSubmit bare) = [formData bare]
   \/ onSubmit_calls (trace handleSubmit sample_state) = [] /\
      onSubmit_calls (trace handleSubmit bare) = []).
Proof.
  apply handleSubmit_reads_seats_and_phone; reflexivity.
Defined.

(** X8.  Submitting does not lock or reset the form: [n] submissions in
    a row leave the state as it was and, when the draft passes the gate,
    call [onSubmit] [n] times with that same draft; when it does not,
    [onSubmit] is not called at all. *)
Theorem session_repeated_submit (B : gmap JS.string BusService.t)
    (n : nat) (st : State) :
  let t := trace (session B (replicate n submit)) st in
  state_after (session B (replicate n submit)) st = st /\
  (submission_allowed (formData st) ->
   onSubmit_calls t = replicate n (formData st)) /\
  (~ submission_allowed (formData st) -> onSubmit_calls t = []).
Proof.
  induction n as [|n (IHst & IHok & IHno)]; cbn [replicate].
  - repeat split.
  - cbv zeta in *.
    rewrite session_cons_state, session_cons_trace, onSubmit_calls_app.
    cbn [dispatch]. rewrite handleSubmit_state.
    split; [exact IHst|].
    destruct (handleSubmit_calls st) as [[Hok ->]|[Hno ->]]; split; intros H;
      try contradiction.
    + cbn [app]. now rewrite IHok.
    + now rewrite IHno.
Qed.

Example repeated_submit_sample :
  onSubmit_calls (trace (session sample_services [submit; submit; submit])
                        sample_state)
  = [sample_draft; sample_draft; sample_draft].
Proof. vm_compute. reflexivity. Qed.

(** ** Seat buttons and the total *)

(** X9.  Plus then minus (and minus then plus) on a seat kind.  With the
    count in range, plus-then-minus gives back the very same state unless
    the count was 10, where it ends at 9; minus-then-plus gives back the
    same state unless the count was 0, where it ends at 1: the clamp
    makes the two buttons inverse to each other except at the bounds. *)
Theorem seat_buttons_round_trip (type : SeatType) (st : State) :
  0 <= seats type (formData st) <= 10 ->
  let up_down := state_after (updateSeats type 1 ;; updateSeats type (-1)) st in
  let down_up := state_after (updateSeats type (-1) ;; updateSeats type 1) st in
  (seats type (formData st) < 10 -> up_down = st) /\
  (seats type (formData st) = 10 -> seats type (formData up_down) = 9) /\
  (0 < seats type (formData st) -> down_up = st) /\
  (seats type (formData st) = 0 -> seats type (formData down_up) = 1).
Proof.
  destruct st as [d input]. destruct d. destruct type; cbn [seats formData];
    intros Hrange; run_handler; cbn;
    cbn in Hrange; repeat split; intros; try lia; do 2 f_equal; lia.
Qed.

Lemma seat_buttons_round_trip_sample :
  let up_down :=
    state_after (updateSeats male 1 ;; updateSeats male (-1)) sample_state in
  let down_up :=
    state_after (updateSeats male (-1) ;; updateSeats male 1) sample_state in
  (seats male (formData sample_state) < 10 -> up_down = sample_state) /\
  (seats male (formData sample_state) = 10 ->
   seats male (formData up_down) = 9) /\
  (0 < seats male (formData sample_state) -> down_up = sample_state) /\
  (seats male (formData sample_state) = 0 ->
   seats male (formData down_up) = 1).
Proof.
  apply (seat_buttons_round_trip male sample_state). cbn. lia.
Defined.

(** X10.  [n] clicks on the plus button of a seat kind whose count [c] is
    in range leave it at [min 10 (c + n)], and [n] clicks on its minus
    button at [max 0 (c - n)]; the other kind's count is not touched. *)
Theorem seat_button_clicks (B : gmap JS.string BusService.t)
    (type : SeatType) (n : nat) (st : State) :
  0 <= seats type (formData st) <= 10 ->
  let plus := state_after (session B (replicate n (seat_plus type))) st in
  let minus := state_after (session B (replicate n (seat_minus type))) st in
  seats type (formData plus)
  = Z.min 10 (seats type (formData st) + Z.of_nat n) /\
  seats type (formData minus)
  = Z.max 0 (seats type (formData st) - Z.of_nat n) /\
  seats (other type) (formData plus) = seats (other type) (formData st) /\
  seats (other type) (formData minus) = seats (other type) (formData st).
Proof.
  revert st. induction n as [|n IH]; intros st Hrange; cbn [replicate].
  - cbn. lia.
  - cbv zeta in *. rewrite !session_cons_state.
    assert (Hup : seats type (formData (state_after (dispatch B (seat_plus type)) st))
                  = Z.min 10 (seats type (formData st) + 1)
                  /\ seats (other type)
                       (formData (state_after (dispatch B (seat_plus type)) st))
                     = seats (other type) (formData st)).
    { cbn [dispatch]. run_handler. destruct type; cbn in *; lia. }
    assert (Hdown : seats type (formData (state_after (dispatch B (seat_minus type)) st))
                    = Z.max 0 (seats type (formData st) - 1)
                    /\ seats (other type)
                         (formData (state_after (dispatch B (seat_minus type)) st))
                       = seats (other type) (formData st)).
    { cbn [dispatch]. run_handler. destruct type; cbn in *; lia. }
    destruct Hup as [Hup Hup'], Hdown as [Hdown Hdown'].
    destruct (IH (state_after (dispatch B (seat_plus type)) st))
      as (IHp & _ & IHp' & _); [lia|].
    destruct (IH (state_after (dispatch B (seat_minus type)) st))
      as (_ & IHm & _ & IHm'); [lia|].
    rewrite IHp, IHm, IHp', IHm', Hup, Hdown, Hup', Hdown'. lia.
Qed.

Lemma seat_button_clicks_sample :
  let plus :=
    state_after (session sample_services (replicate 12 (seat_plus female)))
                sample_state in
  let minus :=
    state_after (session sample_services (replicate 12 (seat_minus female)))
                sample_state in
  seats female (formData plus)
  = Z.min 10 (seats female (formData sample_state) + Z.of_nat 12) /\
  seats female (formData minus)
  = Z.max 0 (seats female (formData sample_state) - Z.of_nat 12) /\
  seats (other female) (formData plus)
  = seats (other female) (formData sample_state) /\
  seats (other female) (formData minus)
  = seats (other female) (formData sample_state).
Proof.
  apply (seat_button_clicks sample_services female 12 sample_state).
  cbn. lia.
Defined.


(** X12.  The total is bounded in every state a session reaches from the
    initial draft: when the selected bus is in the table with a price
    that is not negative, the total is between 0 and 20 times that
    price. *)
Theorem session_total_bounds (B : gmap JS.string BusService.t)
    (tomorrow : JS.string) (input : option HTMLInputElement)
    (es : list Event) (service : BusService.t) :
  let d := formData (state_after (session B es)
                                 (initialState tomorrow input)) in
  B !! bus d = Some service ->
  0 <= BusService.price service ->
  exists total : Z,
    calculateTotal B d = JS.num total /\
    0 <= total <= 20 * BusService.price service.
Proof.
  cbv zeta. intros Hservice Hprice.
  assert (Hrange : seats_in_range
            (formData (state_after (session B es)
                                   (initialState tomorrow input)))).
  { apply (session_keeps B); [apply dispatch_seats_in_range|].
    unfold seats_in_range. cbn. lia. }
  unfold calculateTotal, BUS_SERVICES_get. rewrite Hservice.
  eexists. split; [reflexivity|].
  unfold seats_in_range in Hrange. nia.
Qed.

Lemma session_total_bounds_sample :
  let es := [ bus_change (JS.str "Morning Line"); seat_plus male;
              seat_plus male; seat_plus female ] in
  let d := formData (state_after (session sample_services es)
                                 (initialState (JS.str "2026-01-15") None)) in
  exists total : Z,
    calculateTotal sample_services d = JS.num total /\
    0 <= total <= 20 * 1800.
Proof.
  apply (session_total_bounds sample_services (JS.str "2026-01-15") None
           [ bus_change (JS.str "Morning Line"); seat_plus male;
             seat_plus male; seat_plus female ]
           (BusService.mk (JS.str "06:00") 1800)).
  - vm_compute. reflexivity.
  - cbn. lia.
Defined.

(** X13.  With a bus of the table selected and the count of a seat kind
    in range, a click on its plus button raises the total by exactly the
    price of the service, except at 10 seats where the total stays; a
    click on its minus button lowers it by the price, except at 0. *)
Theorem seat_click_changes_total (B : gmap JS.string BusService.t)
    (type : SeatType) (st : State) (service : BusService.t) :
  B !! bus (formData st) = Some service ->
  0 <= seats type (formData st) <= 10 ->
  exists total : Z,
    calculateTotal B (formData st) = JS.num total /\
    calculateTotal B (formData (state_after (updateSeats type 1) st))
    = JS.num
        (total
         + (if seats type (formData st) <? 10
            then BusService.price service else 0))
    /\
    calculateTotal B (formData (state_after (updateSeats type (-1)) st))
    = JS.num
        (total
         - (if 0 <? seats type (formData st)
            then BusService.price service else 0)).
Proof.
  intros Hservice Hrange. unfold calculateTotal, BUS_SERVICES_get.
  run_handler.
  destruct type; cbn [bus maleSeats femaleSeats seats] in *;
    rewrite Hservice; eexists; (split; [reflexivity|]).
  all: match goal with
       | |- context [Z.max 0 (Z.min 10 (?c + 1))] =>
           replace (Z.max 0 (Z.min 10 (c + 1)))
             with (if c <? 10 then c + 1 else c)
             by (destruct (Z.ltb_spec c 10); lia);
           replace (Z.max 0 (Z.min 10 (c + -1)))
             with (if 0 <? c then c - 1 else c)
             by (destruct (Z.ltb_spec 0 c); lia);
           destruct (Z.ltb_spec c 10), (Z.ltb_spec 0 c)
       end; split; f_equal; lia.
Qed.

Lemma seat_click_changes_total_sample :
  exists total : Z,
    calculateTotal sample_services (formData sample_state) = JS.num total /\
    calculateTotal sample_services
      (formData (state_after (updateSeats male 1) sample_state))
    = JS.num
        (total
         + (if seats male (formData sample_state) <? 10 then 2500 else 0))
    /\
    calculateTotal sample_services
      (formData (state_after (updateSeats male (-1)) sample_state))
    = JS.num
        (total
         - (if 0 <? seats male (formData sample_state) then 2500 else 0)).
Proof.
  apply (seat_click_changes_total sample_services male sample_state
           (BusService.mk (JS.str "21:30") 2500)).
  - vm_compute. reflexivity.
  - cbn. lia.
Defined.

(** ** The phone input, continued *)

Lemma filter_digits_id (p : JS.string) :
  Forall (fun c => is_digit c = true) p -> List.filter is_digit p = p.
Proof.
  induction 1 as [|c p Hc _ IH]; [reflexivity|].
  cbn [List.filter]. now rewrite Hc, IH.
Qed.

Lemma phone_onChange_stored (value : JS.string) (st : State) :
  phone (formData (state_after (phone_onChange value) st))
  = sanitized_phone value.
Proof.
  run_handler. cbn [phone]. apply replace_slice_sanitized.
Qed.

(** X14.  A phone that is already clean is a fixed point of the input:
    when the stored phone is made of at most 10 digits, an [onChange]
    carrying that same value leaves the whole state as it is, so nothing
    more is ever stripped from what the field shows. *)
Theorem phone_onChange_fixed_point (st : State) :
  phone_digits (formData st) ->
  state_after (phone_onChange (phone (formData st))) st = st.
Proof.
  intros [Hdigits Hlen]. destruct st as [d input]. run_handler.
  rewrite replace_slice_sanitized. unfold sanitized_phone.
  cbn [formData] in *. rewrite (filter_digits_id _ Hdigits).
  rewrite take_ge by exact Hlen. destruct d; reflexivity.
Qed.

Lemma phone_onChange_fixed_point_sample :
  state_after (phone_onChange (phone (formData sample_state))) sample_state
  = sample_state.
Proof.
  apply (phone_onChange_fixed_point sample_state).
  split; [|cbn; lia].
  repeat constructor.
Defined.

(** X15.  Once 10 digits are stored the field is full: if the input
    [value] stores a phone of 10 characters, then [value] followed by
    anything at all stores that same phone. *)
Theorem phone_onChange_full (value more : JS.string) (st st' : State) :
  length (phone (formData (state_after (phone_onChange value) st))) = 10%nat ->
  phone (formData (state_after (phone_onChange (value ++ more)) st'))
  = phone (formData (state_after (phone_onChange value) st)).
Proof.
  rewrite !phone_onChange_stored. unfold sanitized_phone.
  rewrite length_take. intros Hlen.
  rewrite List.filter_app. apply take_app_le. lia.
Qed.

Lemma phone_onChange_full_sample :
  phone (formData (state_after
           (phone_onChange (JS.str "077-123-4567" ++ JS.str "89 ext.5"))
           sample_state))
  = phone (formData (state_after
             (phone_onChange (JS.str "077-123-4567")) sample_state)).
Proof.
  apply (phone_onChange_full (JS.str "077-123-4567") (JS.str "89 ext.5")
           sample_state sample_state).
  reflexivity.
Defined.

(** X16.  A character that is not a digit leaves no trace wherever it is
    typed: inserting it at any position of the input does not change what
    is stored. *)
Theorem phone_onChange_ignores_non_digit
    (before after : JS.string) (c : JS.code_unit) (st : State) :
  is_digit c = false ->
  phone (formData (state_after (phone_onChange (before ++ c :: after)) st))
  = phone (formData (state_after (phone_onChange (before ++ after)) st)).
Proof.
  intros Hc. rewrite !phone_onChange_stored. unfold sanitized_phone.
  rewrite !List.filter_app. cbn [List.filter]. now rewrite Hc.
Qed.

Lemma phone_onChange_ignores_non_digit_sample :
  phone (formData (state_after
           (phone_onChange (JS.str "0771" ++ 8364%N :: JS.str "234567"))
           sample_state))
  = phone (formData (state_after
             (phone_onChange (JS.str "0771" ++ JS.str "234567"))
             sample_state)).
Proof.
  apply (phone_onChange_ignores_non_digit
           (JS.str "0771") (JS.str "234567") 8364%N sample_state).
  reflexivity.
Defined.

(** ** The payment slip, continued *)

(** X17.  The last write to [paymentSlip] wins, and nothing cancels a
    decode: a completion after an earlier completion gives the state of
    the later one alone; a completion that arrives after [removeFile]
    gives the draft of that completion alone, its result in
    [paymentSlip]; [removeFile] after a completion gives the draft of
    [removeFile] alone, [paymentSlip] empty. *)
Theorem paymentSlip_last_write_wins (r1 r2 : JS.string) (st : State) :
  state_after (reader_onloadend r1 ;; reader_onloadend r2) st
  = state_after (reader_onloadend r2) st /\
  formData (state_after (removeFile ;; reader_onloadend r2) st)
  = formData (state_after (reader_onloadend r2) st) /\
  formData (state_after (reader_onloadend r1 ;; removeFile) st)
  = formData (state_after removeFile st).
Proof.
  run_handler. destruct (fileInputRef st); cbn; repeat split.
Qed.

(** ** Events against each other *)

Lemma handleFileChange_state (files : option (list File)) (st : State) :
  state_after (handleFileChange files) st = st.
Proof.
  run_handler. destruct files as [[|file rest]|]; cbn [head];
    try destruct (3 * 1024 * 1024 <? size file)%N; reflexivity.
Qed.

Lemma dispatch_silent (B : gmap JS.string BusService.t)
    (e : Event) (st : State) :
  written_field e = None -> state_after (dispatch B e) st = st.
Proof.
  destruct e as [v|v|v|v|v|v|[|]|[|]|files|r| | ]; try discriminate; intros _.
  - apply handleFileChange_state.
  - apply handleSubmit_state.
Qed.

(** X11.  The bus, the seats and the payment slip can be set in any
    order: two events among the bus selection, the seat buttons, the
    completion of a decode, the removal of the slip, the file selection
    and the submission (the events whose handlers use an updater of the
    previous state or write nothing) that write different fields of the
    draft leave the same state in either order. *)
Theorem updater_events_commute
    (B : gmap JS.string BusService.t) (e1 e2 : Event) (st : State) :
  spreads_render e1 = false ->
  spreads_render e2 = false ->
  written_field e1 <> written_field e2 ->
  state_after (session B [e1; e2]) st = state_after (session B [e2; e1]) st.
Proof.
  intros Hu1 Hu2 Hdiff. rewrite !session_cons_state.
  change (state_after (session B []) ?s) with s.
  destruct (written_field e1) as [w1|] eqn:H1.
  - destruct (written_field e2) as [w2|] eqn:H2.
    + destruct e1 as [v|v|v|v|v|v|[|]|[|]|files|r| | ];
        try discriminate H1; try discriminate Hu1;
        destruct e2 as [v'|v'|v'|v'|v'|v'|[|]|[|]|files'|r'| | ];
        try discriminate H2; try discriminate Hu2;
        cbn in H1, H2; try congruence;
        unfold state_after, dispatch, handleBusChange,
          updateSeats, removeFile, reader_onloadend, mbind, M_bind,
          setFormData, setFileInputValue;
        cbn [fst snd formData fileInputRef];
        try destruct (fileInputRef st); reflexivity.
    + now rewrite !(dispatch_silent B e2) by exact H2.
  - rewrite !(dispatch_silent B e1) by exact H1. reflexivity.
Qed.

Lemma updater_events_commute_sample :
  state_after
    (session sample_services
       [ reader_loadend (JS.str "data:image/png;base64,AAAA");
         bus_change (JS.str "Morning Line") ])
    sample_state
  = state_after
      (session sample_services
         [ bus_change (JS.str "Morning Line");
           reader_loadend (JS.str "data:image/png;base64,AAAA") ])
      sample_state.
Proof.
  apply (updater_events_commute sample_services
           (reader_loadend (JS.str "data:image/png;base64,AAAA"))
           (bus_change (JS.str "Morning Line")) sample_state).
  - reflexivity.
  - reflexivity.
  - discriminate.
Defined.

(** X18.  A handler either writes the state or calls a collaborator,
    never both: the submission of the form and the change of the file
    input, the two events whose handlers call collaborators
    ([preventDefault], [Swal.fire], [onSubmit], [readAsDataURL]), leave
    the state exactly as it was, whatever the draft and the files; every
    other event makes no call at all. *)
Theorem dispatch_writes_or_calls (B : gmap JS.string BusService.t)
    (e : Event) (st : State) :
  match e with
  | submit | file_change _ => state_after (dispatch B e) st = st
  | _ => trace (dispatch B e) st = []
  end.
Proof.
  destruct e as [v|v|v|v|v|v|ty|ty|files|r| | ].
  9: apply handleFileChange_state.
  11: apply handleSubmit_state.
  all: run_cases st; reflexivity.
Qed.

Example dispatch_calls_sample :
  trace (dispatch sample_services submit) sample_state
  = [preventDefault; onSubmit sample_draft] /\
  trace (dispatch sample_services (file_change (Some [ {| size := 10 |} ])))
        sample_state
  = [readAsDataURL {| size := 10 |}].
Proof. split; reflexivity. Qed.
